(** * IRIS eye-diagnostic backend: few-shot nearest-neighbour classifier

    A shallow embedding of [model_backend/backend.py] (the working
    [/predict/] handler) and of [model_backend/app/main.py] (the Lambda
    variant with the metadata helpers).

    Numbers are exact reals: an embedding is a [list R], the rounding of
    the 32-bit floats of the tensors is not part of this model, and the
    near-zero tolerance that recent scikit-learn releases use in place of
    the exact zero test (ten machine epsilons, a rounding safeguard) has
    no counterpart in exact arithmetic.  The library routines the
    handlers call (PIL, torchvision, the traced encoder) are functions
    handed to the model. *)

From stdpp Require Import gmap strings list.
From Stdlib Require Import Reals Lra Lia.

(** ** Exceptions and the handler monad *)

(** The Python exceptions a handler run can end with. *)
Inductive exn : Type :=
  | UnidentifiedImageError   (* PIL: Image.open cannot identify the stream *)
  | OSError                  (* PIL: the lazy pixel load of convert fails *)
  | ValueError               (* scikit-learn / numpy shape checks *)
  | IndexError               (* list index out of range *)
  | NameError                 (* a name bound nowhere *)
  | TypeError.               (* a value of the wrong kind *)

Inductive result (A : Type) : Type :=
  | Return (a : A)
  | Raise (e : exn).
Arguments Return {A} a.
Arguments Raise {A} e.

Definition bind_result {A B} (r : result A) (k : A -> result B) : result B :=
  match r with
  | Return a => k a
  | Raise e => Raise e
  end.

(** ** Numeric core: numpy / scikit-learn on exact reals *)

Module Numeric.
Local Open Scope R_scope.

(** An embedding, and a 2-D array as the list of its rows. *)
Abbreviation vec := (list R).
Abbreviation matrix := (list (list R)).

(** Every row has [D] entries (an ndarray is rectangular). *)
Definition rectangular (D : nat) (m : matrix) : Prop :=
  Forall (fun r => length r = D) m.

Fixpoint dot (x y : vec) : R :=
  match x, y with
  | a :: x', b :: y' => a * b + dot x' y'
  | _, _ => 0
  end.

(** [row_norms]: the Euclidean norm of a row. *)
Definition row_norm (x : vec) : R := sqrt (dot x x).

(** [_handle_zeros_in_scale]: a zero norm is replaced by 1. *)
Definition handle_zeros_in_scale (n : R) : R :=
  if Req_dec_T n 0 then 1 else n.

(** [normalize(X, copy=True)] on one row. *)
Definition normalize (x : vec) : vec :=
  map (fun a => a / handle_zeros_in_scale (row_norm x)) x.

Definition ncols (m : matrix) : nat :=
  match m with
  | [] => O
  | r :: _ => length r
  end.

(** [check_pairwise_arrays]: both arrays need a sample and a feature,
    and the same number of features. *)
Definition check_pairwise_arrays (X Y : matrix) : bool :=
  negb (Nat.eqb (length X) 0) && negb (Nat.eqb (length Y) 0)
  && negb (Nat.eqb (ncols X) 0) && Nat.eqb (ncols X) (ncols Y).

(** One entry of [X_normalized @ Y_normalized.T]. *)
Definition score (x y : vec) : R := dot (normalize x) (normalize y).

(** [sklearn.metrics.pairwise.cosine_similarity(X, Y)]: both arrays are
    row-normalised, then multiplied. *)
Definition cosine_similarity (X Y : matrix) : result matrix :=
  if check_pairwise_arrays X Y
  then Return (map (fun x => map (fun y => score x y) Y) X)
  else Raise ValueError.

(** The scan of [ndarray.argmax]: the running maximum is replaced only by
    a strictly larger element, so the first occurrence wins. *)
Fixpoint argmax_from (best_i : nat) (best : R) (i : nat) (l : list R) : nat :=
  match l with
  | [] => best_i
  | x :: t =>
      if Rlt_dec best x then argmax_from i x (S i) t
      else argmax_from best_i best (S i) t
  end.

(** [a.argmax()] of the flattened array; an empty array is a ValueError. *)
Definition argmax (a : matrix) : result nat :=
  match concat a with
  | [] => Raise ValueError
  | x :: t => Return (argmax_from 0 x 1 t)
  end.


End Numeric.

(** ** Handlers: results with a process state threaded through

    A handler run takes the module's globals and gives back a result and
    the globals it leaves behind (an exception does not roll anything
    back). *)

Definition M (S A : Type) : Type := S -> result A * S.

Definition ret {S A} (a : A) : M S A := fun s => (Return a, s).
Definition raise {S A} (e : exn) : M S A := fun s => (Raise e, s).
Definition lift {S A} (r : result A) : M S A := fun s => (r, s).
Definition gets {S A} (f : S -> A) : M S A := fun s => (Return (f s), s).
Definition bind {S A B} (m : M S A) (k : A -> M S B) : M S B :=
  fun s =>
    match m s with
    | (Return a, s') => k a s'
    | (Raise e, s') => (Raise e, s')
    end.

Declare Scope handler_scope.
Delimit Scope handler_scope with handler.
Notation "x <~ m ;; k" := (bind m (fun x => k))
  (at level 90, m at level 80, right associativity) : handler_scope.

(** The globals left after serving the requests of [reqs] in turn. *)
Fixpoint serve {S A P} (handler : P -> M S A) (reqs : list P) (s : S) : S :=
  match reqs with
  | [] => s
  | p :: reqs' => serve handler reqs' (snd (handler p s))
  end.

(** ** The libraries behind the handlers *)

Class Libs : Type := {
  Image : Type;
  Tensor : Type;
  (** [PIL.Image.open(io.BytesIO(b))] *)
  Image_open : list Byte.byte -> result Image;
  (** [image.convert(mode)], which loads the pixel data *)
  convert : string -> Image -> result Image;
  (** [transforms.Resize((h, w))] *)
  Resize : nat * nat -> Image -> Image;
  (** [transforms.ToTensor()] *)
  ToTensor : Image -> Tensor;
  (** [tensor.unsqueeze(0)] *)
  unsqueeze0 : Tensor -> Tensor
}.

(** ** backend.py *)

Module Backend.
Import Numeric.
Local Open Scope handler_scope.

Section WithLibs.
Context {L : Libs}.

(** The module-level state: the traced encoder (its [1, D] output is
    kept as its one row, which is what [squeeze(0)] extracts), the
    support embeddings and their labels. *)
Record Globals : Type := {
  model : Tensor -> vec;
  support_embeddings : matrix;
  support_labels : list string
}.

(** Line 17: the label list written in the module. *)
Definition labels : list string :=
  ["cataract"; "healthy"; "pterygium"; "glaucoma"; "keratoconus"; "strabismus";
   "pink_eye"; "stye"; "trachoma"; "uveitis"]%string.

(** Lines 12-20, with the two loaded files as arguments. *)
Definition startup (encoder : Tensor -> vec) (embeddings : matrix) : Globals :=
  {| model := encoder; support_embeddings := embeddings; support_labels := labels |}.

(** Lines 23-26: [Compose([Resize((224, 224)), ToTensor()])]. *)
Definition transform (image : Image) : Tensor :=
  ToTensor (Resize (224, 224)%nat image).

Record JSONResponse : Type := {
  predicted_class_id : nat;
  predicted_class_label : string
}.

(** Lines 31-33: the image preprocessing of the handler. *)
Definition preprocess (image_bytes : list Byte.byte) : M Globals Tensor :=
  image <~ lift (bind_result (Image_open image_bytes) (convert "RGB")) ;;
  ret (unsqueeze0 (transform image)).

(** Lines 43-46 on a query embedding and a support array. *)
Definition classify (predicted_embedding : vec) (support_embeddings_np : matrix)
  : result nat :=
  bind_result (cosine_similarity [predicted_embedding] support_embeddings_np) argmax.

(** A list subscript with a non-negative index. *)
Definition subscript {A} (l : list A) (i : nat) : result A :=
  match l !! i with
  | Some a => Return a
  | None => Raise IndexError
  end.

(** Lines 29-59: the [/predict/] handler. *)
Definition predict (file : list Byte.byte) : M Globals JSONResponse :=
  input_tensor <~ preprocess file ;;
  encoder <~ gets model ;;
  let predicted_embedding := encoder input_tensor in
  support_embeddings_np <~ gets support_embeddings ;;
  class_id <~ lift (classify predicted_embedding support_embeddings_np) ;;
  support_labels_ <~ gets support_labels ;;
  class_label <~ lift (subscript support_labels_ class_id) ;;
  ret {| predicted_class_id := class_id; predicted_class_label := class_label |}.

(** Lines 61-63. *)
Definition read_root : string := " Classification API!".

(** The support set as the data model has it: one label per embedding,
    every embedding of the encoder's output dimension [D]. *)
Definition well_formed (D : nat) (g : Globals) : Prop :=
  length (support_embeddings g) = length (support_labels g)
  /\ support_embeddings g <> []
  /\ (0 < D)%nat
  /\ rectangular D (support_embeddings g)
  /\ forall t, length (model g t) = D.

End WithLibs.
End Backend.

(** ** app/main.py *)

Module Main.
Import Numeric.
Local Open Scope handler_scope.

(** One entry of a recommendation list. *)
Record rec_item : Type := {
  recommendation : string;
  priority : Z
}.

(** Lines 71-73. *)
Definition calculate_severity {F} (features : F) (class_idx : Z) : string :=
  "moderate".

(** Lines 76-80: the dict built by each call of [get_diagnosis_text]. *)
Definition diagnoses : gmap Z string :=
  <[1%Z := "Healthy eye. No significant issues detected..."%string]>
  (<[0%Z := "Cataract detected. This is characterized by clouding of the eye's lens..."%string]>
   ∅).

(** Line 81: [diagnoses.get(class_idx, "Unknown condition")]. *)
Definition get_diagnosis_text (class_idx : Z) : string :=
  default "Unknown condition"%string (diagnoses !! class_idx).

(** Lines 84-91: the dict built by each call of [get_recommendations]. *)
Definition recommendations : gmap Z (list rec_item) :=
  <[0%Z := [ {| recommendation := "Schedule an appointment with an ophthalmologist";
                priority := 1 |};
             {| recommendation := "Avoid driving at night"; priority := 2 |} ]]>
  ∅.

(** Line 92: [recommendations.get(class_idx, [])]. *)
Definition get_recommendations (class_idx : Z) : list rec_item :=
  default [] (recommendations !! class_idx).

(** Lines 66-68. *)
Definition health_check : string * string := ("status", "ok")%string.

Section WithLibs.
Context {L : Libs}.

(** What a module-level name can be bound to. *)
Inductive pyval : Type :=
  | VEncoder (f : Tensor -> vec)
  | VTensor (t : Tensor)
  | VArray (a : matrix)
  | VLabels (l : list string)
  | VInt (z : Z)
  | VOther.

(** The module namespace, the names bound at module level, is a
    [gmap string pyval]. *)

(** The names the import of the module binds (lines 2-15 and the
    [def]s); none of their values is read as data by the handler. *)
Definition module_names : list string :=
  ["FastAPI"; "File"; "UploadFile"; "torch"; "Image"; "io"; "np"; "pickle"; "os";
   "app"; "load_model"; "predict"; "health_check"; "calculate_severity";
   "get_diagnosis_text"; "get_recommendations"]%string.

Definition module_namespace : gmap string pyval :=
  list_to_map (map (fun n => (n, VOther)) module_names).

(** Lines 19-34: the startup hook, with the contents of the two files
    as arguments; it binds three globals. *)
Definition load_model (encoder : Tensor -> vec) (features : matrix)
    (labels : list string) (ns : gmap string pyval) : gmap string pyval :=
  <["support_labels"%string := VLabels labels]>
  (<["support_features"%string := VArray features]>
   (<["model"%string := VEncoder encoder]> ns)).

(** Reading a name that is not a local of the function. *)
Definition load_global (name : string) : M (gmap string pyval) pyval :=
  fun ns =>
    match ns !! name with
    | Some v => (Return v, ns)
    | None => (Raise NameError, ns)
    end.

Definition as_encoder (v : pyval) : result (Tensor -> vec) :=
  match v with VEncoder f => Return f | _ => Raise TypeError end.
Definition as_tensor (v : pyval) : result Tensor :=
  match v with VTensor t => Return t | _ => Raise TypeError end.
Definition as_array (v : pyval) : result matrix :=
  match v with VArray a => Return a | _ => Raise TypeError end.
Definition as_labels (v : pyval) : result (list string) :=
  match v with VLabels l => Return l | _ => Raise TypeError end.
Definition as_int (v : pyval) : result Z :=
  match v with VInt z => Return z | _ => Raise TypeError end.

(** A subscript [l[i]] with a Python integer: a negative index counts
    from the end. *)
Definition py_subscript {A} (l : list A) (i : Z) : result A :=
  let j := if (i <? 0)%Z then (Z.of_nat (length l) + i)%Z else i in
  if (j <? 0)%Z then Raise IndexError
  else match l !! Z.to_nat j with
       | Some a => Return a
       | None => Raise IndexError
       end.

Record Prediction : Type := {
  classId : Z;
  className : string;
  confidence : R;
  severity : string;
  diagnosis : string;
  recommendations_ : list rec_item
}.

Record Response : Type := {
  success : bool;
  prediction : Prediction
}.

(** Lines 37-63: the [/predict/] handler.  [image_tensor], [similarity]
    and [best_class_idx] are assigned nowhere in the function, so they
    are read as globals; the entries of the returned dict are evaluated
    in the order they are written. *)
Definition predict (file : list Byte.byte) : M (gmap string pyval) Response :=
  image <~ lift (bind_result (Image_open file) (convert "RGB")) ;;
  (* image_features = model(image_tensor) *)
  model_ <~ load_global "model" ;;
  image_tensor <~ load_global "image_tensor" ;;
  encoder <~ lift (as_encoder model_) ;;
  input <~ lift (as_tensor image_tensor) ;;
  let image_features := encoder input in
  (* "classId": best_class_idx *)
  class_id <~ bind (load_global "best_class_idx") (fun v => lift (as_int v)) ;;
  (* "className": support_labels[best_class_idx] *)
  support_labels <~ bind (load_global "support_labels") (fun v => lift (as_labels v)) ;;
  idx <~ bind (load_global "best_class_idx") (fun v => lift (as_int v)) ;;
  class_name <~ lift (py_subscript support_labels idx) ;;
  (* "confidence": float(similarity[0][best_class_idx]) *)
  similarity <~ bind (load_global "similarity") (fun v => lift (as_array v)) ;;
  row0 <~ lift (py_subscript similarity 0) ;;
  idx' <~ bind (load_global "best_class_idx") (fun v => lift (as_int v)) ;;
  conf <~ lift (py_subscript row0 idx') ;;
  ret {| success := true;
         prediction := {| classId := class_id;
                          className := class_name;
                          confidence := conf;
                          severity := calculate_severity image_features class_id;
                          diagnosis := get_diagnosis_text class_id;
                          recommendations_ := get_recommendations class_id |} |}.

(** The namespaces the process can be in: the imported module, the
    startup hook run on it, and any request served after that. *)
Inductive reachable : gmap string pyval -> Prop :=
  | reach_import : reachable module_namespace
  | reach_startup ns encoder features labels :
      reachable ns -> reachable (load_model encoder features labels ns)
  | reach_request ns file :
      reachable ns -> reachable (snd (predict file ns)).

End WithLibs.

Abbreviation Namespace := (gmap string pyval).
End Main.

(** ** Sample collaborators and data, for the concrete runs below *)

(** A stand-in for the libraries: a picture is its own byte string, the
    decoder refuses the empty stream (as PIL does), nothing else fails. *)
Definition sample_libs : Libs := {|
  Image := list Byte.byte;
  Tensor := list Byte.byte;
  Image_open := fun b =>
    match b with
    | [] => Raise UnidentifiedImageError
    | _ => Return b
    end;
  convert := fun _ i => Return i;
  Resize := fun _ i => i;
  ToTensor := fun i => i;
  unsqueeze0 := fun t => t
|}.

(** Ten support embeddings of dimension 2, one per label. *)
Definition sample_embeddings : Numeric.matrix :=
  [[1; 0]; [0; 1]; [1; 1]; [1; 2]; [2; 1]; [1; 3]; [3; 1]; [2; 3]; [3; 2]; [1; 4]]%R.

(** An encoder that sends every picture to the second support embedding. *)
Definition sample_globals : Backend.Globals (L := sample_libs) :=
  Backend.startup (L := sample_libs) (fun _ => [0; 1]%R) sample_embeddings.


(** The namespace of main.py after its startup hook has run. *)
Definition sample_namespace : gmap string (Main.pyval (L := sample_libs)) :=
  Main.load_model (L := sample_libs) (fun _ => [0; 1]%R) sample_embeddings
    Backend.labels (Main.module_namespace (L := sample_libs)).

(** A one-byte upload. *)
Definition sample_upload : list Byte.byte := [Byte.x2a].



(** ** Vocabulary of the statements *)


(** [t] is [s] multiplied by a positive constant. *)
Definition positive_multiple (s t : Numeric.vec) : Prop :=
  exists c : R, (0 < c)%R /\ t = map (Rmult c) s.

(** [m] at index [i] is a maximum of [l], and nothing before [i]
    reaches it: the first occurrence of the maximum. *)
Definition first_max_val (l : list R) (i : nat) (m : R) : Prop :=
  l !! i = Some m
  /\ (forall j y, l !! j = Some y -> (y <= m)%R)
  /\ (forall j y, (j < i)%nat -> l !! j = Some y -> (y < m)%R).

Definition first_max (l : list R) (i : nat) : Prop :=
  exists m, first_max_val l i m.

(** A handler step that hands back the state it was given. *)
Definition preserves {S A} (m : M S A) : Prop := forall s, snd (m s) = s.

(** What the decoding of an upload (lines 31-32 of backend.py, 39-40 of
    main.py) gives. *)
Definition decode {L : Libs} (file : list Byte.byte) : result Image :=
  bind_result (Image_open file) (convert "RGB").

(** * Properties *)

(** ** Dot products and norms *)

Section DotFacts.
Import Numeric.
Local Open Scope R_scope.

Lemma dot_comm (x y : vec) : dot x y = dot y x.
Proof.
  revert y; induction x as [|a x IH]; intros [|b y]; simpl; auto.
  rewrite IH; ring.
Qed.

Lemma dot_self_nonneg (x : vec) : 0 <= dot x x.
Proof. induction x as [|a x IH]; simpl; nra. Qed.

Lemma dot_scale_l (k : R) (x y : vec) :
  dot (map (fun a => a / k) x) y = dot x y / k.
Proof.
  revert y; induction x as [|a x IH]; intros [|b y]; simpl;
    try (unfold Rdiv; ring).
  rewrite IH; unfold Rdiv; ring.
Qed.

Lemma dot_scale_r (k : R) (x y : vec) :
  dot x (map (fun a => a / k) y) = dot x y / k.
Proof. rewrite dot_comm, dot_scale_l, dot_comm; reflexivity. Qed.

Lemma dot_mult_l (c : R) (x y : vec) : dot (map (Rmult c) x) y = c * dot x y.
Proof.
  revert y; induction x as [|a x IH]; intros [|b y]; simpl; try ring.
  rewrite IH; ring.
Qed.

(** A vector of squared length zero has only zero entries. *)
Lemma dot_self_zero (x : vec) : dot x x = 0 -> Forall (fun a => a = 0) x.
Proof.
  induction x as [|a x IH]; simpl; intros H; constructor.
  - pose proof (dot_self_nonneg x); nra.
  - apply IH. pose proof (dot_self_nonneg x); nra.
Qed.

Lemma dot_zeros_l (x y : vec) : Forall (fun a => a = 0) x -> dot x y = 0.
Proof.
  intros H; revert y; induction H as [|a x Ha _ IH]; intros [|b y]; simpl; auto.
  rewrite IH, Ha; ring.
Qed.

Lemma row_norm_nonneg (x : vec) : 0 <= row_norm x.
Proof. apply sqrt_pos. Qed.

Lemma row_norm_sqr (x : vec) : row_norm x * row_norm x = dot x x.
Proof. apply sqrt_sqrt, dot_self_nonneg. Qed.

Lemma row_norm_zero (x : vec) : row_norm x = 0 -> Forall (fun a => a = 0) x.
Proof.
  intros H; apply dot_self_zero.
  rewrite <- row_norm_sqr, H; ring.
Qed.

Lemma handle_zeros_pos (n : R) : 0 <= n -> 0 < handle_zeros_in_scale n.
Proof.
  intros H; unfold handle_zeros_in_scale.
  destruct (Req_dec_T n 0); lra.
Qed.

Lemma handle_zeros_nonzero (n : R) : n <> 0 -> handle_zeros_in_scale n = n.
Proof.
  intros H; unfold handle_zeros_in_scale.
  destruct (Req_dec_T n 0); [contradiction | reflexivity].
Qed.

(** The score of the routine, as one quotient over the guarded norms. *)
Lemma score_quotient (q s : vec) :
  score q s =
  dot q s / (handle_zeros_in_scale (row_norm q) * handle_zeros_in_scale (row_norm s)).
Proof.
  unfold score, normalize.
  rewrite dot_scale_l, dot_scale_r.
  pose proof (handle_zeros_pos _ (row_norm_nonneg q)).
  pose proof (handle_zeros_pos _ (row_norm_nonneg s)).
  field; lra.
Qed.


(** Cauchy-Schwarz on lists. *)
Lemma cauchy_schwarz_sqr (x y : vec) : dot x y * dot x y <= dot x x * dot y y.
Proof.
  revert y; induction x as [|a x IH]; intros [|b y]; simpl;
    try (rewrite ?Rmult_0_l, ?Rmult_0_r; lra).
  specialize (IH y).
  pose proof (dot_self_nonneg x) as HX. pose proof (dot_self_nonneg y) as HY.
  set (d := dot x y) in *. set (X := dot x x) in *. set (Y := dot y y) in *.
  assert (H2 : 2 * (a * b * d) <= a * a * Y + b * b * X).
  { destruct (Rle_dec (2 * (a * b * d)) 0) as [Hn|Hp]; [nra|].
    apply Rnot_le_lt in Hp.
    apply Rnot_lt_le; intros Hlt.
    assert (0 <= a * a * Y + b * b * X) by nra.
    assert ((a * a * Y + b * b * X) * (a * a * Y + b * b * X)
            < (2 * (a * b * d)) * (2 * (a * b * d))) by nra.
    assert (4 * (a * a) * (b * b) * (d * d) <= 4 * (a * a) * (b * b) * (X * Y)).
    { apply Rmult_le_compat_l; [nra | lra]. }
    pose proof (Rle_0_sqr (a * a * Y - b * b * X)) as Hsq. unfold Rsqr in Hsq.
    nra. }
  nra.
Qed.

Lemma cauchy_schwarz (x y : vec) : dot x y <= row_norm x * row_norm y.
Proof.
  pose proof (cauchy_schwarz_sqr x y) as H.
  rewrite <- (row_norm_sqr x), <- (row_norm_sqr y) in H.
  pose proof (row_norm_nonneg x). pose proof (row_norm_nonneg y).
  apply Rnot_lt_le; intros Hlt.
  assert (Hp : 0 <= row_norm x * row_norm y) by (apply Rmult_le_pos; assumption).
  set (p := row_norm x * row_norm y) in *.
  replace (row_norm x * row_norm x * (row_norm y * row_norm y)) with (p * p) in H
    by (unfold p; ring).
  nra.
Qed.

End DotFacts.

(** ** Scores: bounds, the equality case, scaling *)

Section ScoreFacts.
Import Numeric.
Local Open Scope R_scope.

Lemma score_zero_norm_l (q s : vec) : row_norm q = 0 -> score q s = 0.
Proof.
  intros H. rewrite score_quotient, (dot_zeros_l q s (row_norm_zero q H)).
  unfold Rdiv; ring.
Qed.

Lemma score_zero_norm_r (q s : vec) : row_norm s = 0 -> score q s = 0.
Proof.
  intros H. rewrite score_quotient, dot_comm, (dot_zeros_l s q (row_norm_zero s H)).
  unfold Rdiv; ring.
Qed.

Lemma score_nonzero (q s : vec) :
  row_norm q <> 0 -> row_norm s <> 0 ->
  score q s = dot q s / (row_norm q * row_norm s).
Proof.
  intros Hq Hs. rewrite score_quotient, !handle_zeros_nonzero by assumption.
  reflexivity.
Qed.

Lemma score_le_1 (q s : vec) : score q s <= 1.
Proof.
  destruct (Req_dec_T (row_norm q) 0) as [Hq|Hq].
  { rewrite score_zero_norm_l by assumption; lra. }
  destruct (Req_dec_T (row_norm s) 0) as [Hs|Hs].
  { rewrite score_zero_norm_r by assumption; lra. }
  rewrite score_nonzero by assumption.
  pose proof (row_norm_nonneg q). pose proof (row_norm_nonneg s).
  assert (0 < row_norm q * row_norm s) by (apply Rmult_lt_0_compat; lra).
  pose proof (cauchy_schwarz q s) as Hcs.
  apply (Rmult_le_reg_r (row_norm q * row_norm s)); [assumption|].
  replace (dot q s / (row_norm q * row_norm s) * (row_norm q * row_norm s))
    with (dot q s) by (field; split; lra).
  lra.
Qed.

Lemma score_self (s : vec) : row_norm s <> 0 -> score s s = 1.
Proof.
  intros Hs. rewrite score_nonzero by assumption.
  rewrite <- row_norm_sqr. field; assumption.
Qed.





Lemma row_norm_scale (c : R) (s : vec) :
  0 < c -> row_norm (map (Rmult c) s) = c * row_norm s.
Proof.
  intros Hc. unfold row_norm.
  rewrite dot_mult_l, dot_comm, dot_mult_l.
  replace (c * (c * dot s s)) with (c * c * dot s s) by ring.
  rewrite sqrt_mult_alt by nra.
  rewrite sqrt_square by lra. reflexivity.
Qed.

(** Scaling a support row by a positive constant leaves its score alone. *)
Lemma score_scale_r (c : R) (q s : vec) :
  0 < c -> score q (map (Rmult c) s) = score q s.
Proof.
  intros Hc.
  destruct (Req_dec_T (row_norm s) 0) as [Hs|Hs].
  - rewrite (score_zero_norm_r q s Hs).
    apply score_zero_norm_r. rewrite row_norm_scale, Hs by assumption. ring.
  - assert (Hcs : row_norm (map (Rmult c) s) <> 0).
    { rewrite row_norm_scale by assumption. nra. }
    rewrite !score_quotient.
    rewrite (handle_zeros_nonzero _ Hcs), (handle_zeros_nonzero _ Hs).
    rewrite row_norm_scale by assumption.
    rewrite (dot_comm q (map _ _)), dot_mult_l, (dot_comm s q).
    pose proof (handle_zeros_pos _ (row_norm_nonneg q)).
    field. repeat split; lra.
Qed.

End ScoreFacts.

(** ** The arg-max scan and the classifier *)

Section ArgmaxFacts.
Import Numeric.
Local Open Scope R_scope.

Lemma first_max_val_snoc_keep (pre : list R) (i : nat) (m x : R) :
  first_max_val pre i m -> x <= m -> first_max_val (pre ++ [x]) i m.
Proof.
  intros (Hi & Hmax & Hfirst) Hx. split; [|split].
  - apply lookup_app_l_Some; assumption.
  - intros j y Hj. apply lookup_app_Some in Hj as [Hj|[_ Hj]]; [eauto|].
    apply list_lookup_singleton_Some in Hj as [_ <-]. assumption.
  - intros j y Hlt Hj. apply lookup_app_Some in Hj as [Hj|[Hge _]]; [eauto|].
    apply lookup_lt_Some in Hi. lia.
Qed.

Lemma first_max_val_snoc_new (pre : list R) (i : nat) (m x : R) :
  first_max_val pre i m -> m < x -> first_max_val (pre ++ [x]) (length pre) x.
Proof.
  intros (Hi & Hmax & Hfirst) Hx. split; [|split].
  - rewrite lookup_app_r by lia. rewrite Nat.sub_diag. reflexivity.
  - intros j y Hj. apply lookup_app_Some in Hj as [Hj|[_ Hj]].
    + specialize (Hmax _ _ Hj). lra.
    + apply list_lookup_singleton_Some in Hj as [_ <-]. lra.
  - intros j y Hlt Hj. apply lookup_app_Some in Hj as [Hj|[Hge _]]; [|lia].
    specialize (Hmax _ _ Hj). lra.
Qed.

Lemma argmax_from_first_max (t : list R) :
  forall (pre : list R) (best_i : nat) (best : R),
    first_max_val pre best_i best ->
    first_max (pre ++ t) (argmax_from best_i best (length pre) t).
Proof.
  induction t as [|x t IH]; intros pre best_i best H; simpl.
  - rewrite app_nil_r. exists best; assumption.
  - replace (pre ++ x :: t) with ((pre ++ [x]) ++ t)
      by (rewrite <- app_assoc; reflexivity).
    replace (S (length pre)) with (length (pre ++ [x]))
      by (rewrite length_app; simpl; lia).
    destruct (Rlt_dec best x) as [Hlt|Hge].
    + apply IH. eapply first_max_val_snoc_new; eassumption.
    + apply IH. apply first_max_val_snoc_keep; [assumption | lra].
Qed.

Lemma argmax_row_first_max (x : R) (t : list R) :
  first_max (x :: t) (argmax_from 0 x 1 t).
Proof.
  apply (argmax_from_first_max t [x] 0%nat x).
  split; [reflexivity | split].
  - intros [|j] y Hj; simpl in Hj; [|discriminate].
    injection Hj as <-. lra.
  - intros j y Hlt; lia.
Qed.

Lemma ncols_rectangular (D : nat) (S : matrix) :
  S <> [] -> rectangular D S -> ncols S = D.
Proof.
  intros Hne Hr. destruct S as [|r S]; [contradiction|].
  simpl. inversion Hr; assumption.
Qed.

Lemma check_pairwise_query (q : vec) (S : matrix) :
  S <> [] -> (0 < length q)%nat -> rectangular (length q) S ->
  check_pairwise_arrays [q] S = true.
Proof.
  intros Hne Hq Hr. unfold check_pairwise_arrays.
  rewrite (ncols_rectangular _ _ Hne Hr). simpl.
  destruct S as [|r S]; [contradiction|]. simpl.
  destruct (length q) eqn:E; [lia|]. simpl.
  rewrite Nat.eqb_refl. reflexivity.
Qed.

(** On a well-shaped query and support array the classifier returns the
    first maximum of the row of scores. *)
Lemma classify_first_max (q : vec) (S : matrix) :
  S <> [] -> (0 < length q)%nat -> rectangular (length q) S ->
  exists i, Backend.classify q S = Return i /\ first_max (map (score q) S) i.
Proof.
  intros Hne Hq Hr. unfold Backend.classify, cosine_similarity.
  rewrite check_pairwise_query by assumption. simpl.
  unfold argmax. simpl. rewrite app_nil_r.
  destruct S as [|s S]; [contradiction|]. simpl.
  eexists; split; [reflexivity|].
  apply argmax_row_first_max.
Qed.

Lemma first_max_lt_length (l : list R) (i : nat) :
  first_max l i -> (i < length l)%nat.
Proof. intros (m & Hi & _). eapply lookup_lt_Some; eassumption. Qed.



End ArgmaxFacts.

(** ** The nearest-neighbour classifier (backend.py, lines 43-47) *)

Section Classifier.
Import Numeric.
Local Open Scope R_scope.









End Classifier.

(** ** Handler steps that leave the process state alone *)

Section Frame.
Context {S : Type}.

Lemma preserves_ret {A} (a : A) : preserves (ret (S := S) a).
Proof. intros s; reflexivity. Qed.

Lemma preserves_raise {A} (e : exn) : preserves (raise (S := S) (A := A) e).
Proof. intros s; reflexivity. Qed.

Lemma preserves_lift {A} (r : result A) : preserves (lift (S := S) r).
Proof. intros s; reflexivity. Qed.

Lemma preserves_gets {A} (f : S -> A) : preserves (gets f).
Proof. intros s; reflexivity. Qed.

Lemma preserves_bind {A B} (m : M S A) (k : A -> M S B) :
  preserves m -> (forall a, preserves (k a)) -> preserves (bind m k).
Proof.
  intros Hm Hk s. unfold bind.
  specialize (Hm s). destruct (m s) as [[a|e] s']; simpl in *; subst.
  - apply Hk.
  - reflexivity.
Qed.

Lemma serve_preserves {A P} (handler : P -> M S A) (reqs : list P) (s : S) :
  (forall p, preserves (handler p)) -> serve handler reqs s = s.
Proof.
  intros H. induction reqs as [|p reqs IH]; simpl; [reflexivity|].
  rewrite H. exact IH.
Qed.

End Frame.

Create HintDb frame.
#[export] Hint Resolve preserves_ret preserves_raise preserves_lift
  preserves_gets : frame.
#[export] Hint Extern 1 (preserves (bind _ _)) =>
  apply preserves_bind; [| intro] : frame.

Section BackendHandler.
Import Numeric.
Context {L : Libs}.
Local Open Scope R_scope.

Lemma backend_preprocess_preserves (file : list Byte.byte) :
  preserves (Backend.preprocess file).
Proof. unfold Backend.preprocess. auto with frame. Qed.

Lemma backend_predict_preserves (file : list Byte.byte) :
  preserves (Backend.predict file).
Proof.
  unfold Backend.predict.
  pose proof (backend_preprocess_preserves file).
  auto 12 with frame.
Qed.

(** The handler on an upload that decodes: it runs the classifier on
    the encoder's output and looks the label up. *)
Lemma backend_predict_decoded (file : list Byte.byte) (image : Image)
    (g : Backend.Globals) :
  decode file = Return image ->
  Backend.predict file g =
  (bind_result
     (Backend.classify
        (Backend.model g (unsqueeze0 (Backend.transform image)))
        (Backend.support_embeddings g))
     (fun class_id =>
        bind_result (Backend.subscript (Backend.support_labels g) class_id)
          (fun class_label =>
             Return {| Backend.predicted_class_id := class_id;
                       Backend.predicted_class_label := class_label |})),
   g).
Proof.
  intros Hd.
  unfold decode in Hd.
  unfold Backend.predict, Backend.preprocess, bind, lift, gets, ret.
  rewrite Hd.
  destruct (Backend.classify _ _) as [i|e]; simpl; [|reflexivity].
  destruct (Backend.subscript _ _) as [l|e]; reflexivity.
Qed.

(** C2.  For an upload that decodes as an image, with a support set of
    N entries as the data model has it, the handler returns a class id
    in [0, N) and the label the label list holds at that index. *)
Theorem predict_valid_image (D : nat) (g : Backend.Globals)
    (file : list Byte.byte) (image : Image) :
  decode file = Return image ->
  Backend.well_formed D g ->
  exists (class_id : nat) (class_label : string),
    Backend.predict file g =
      (Return {| Backend.predicted_class_id := class_id;
                 Backend.predicted_class_label := class_label |}, g)
    /\ (class_id < length (Backend.support_embeddings g))%nat
    /\ Backend.support_labels g !! class_id = Some class_label.
Proof.
  intros Hd (Hlen & Hne & HD & Hrect & Hdim).
  rewrite (backend_predict_decoded file image g Hd).
  set (q := Backend.model g (unsqueeze0 (Backend.transform image))).
  assert (Hq : length q = D) by apply Hdim.
  destruct (classify_first_max q (Backend.support_embeddings g)) as (i & Hi & Hmax).
  { assumption. } { lia. } { rewrite Hq; assumption. }
  apply first_max_lt_length in Hmax. rewrite length_map in Hmax.
  destruct (lookup_lt_is_Some_2 (Backend.support_labels g) i) as [l Hl]; [lia|].
  exists i, l. rewrite Hi. simpl. unfold Backend.subscript. rewrite Hl.
  auto.
Qed.

(** C5, amended.  For an upload whose bytes do not decode as an image
    the handler builds no response and catches nothing: the decoder's
    exception leaves the handler as it was raised, with the module
    state untouched. *)
Theorem predict_undecodable (g : Backend.Globals) (file : list Byte.byte)
    (e : exn) :
  decode file = Raise e ->
  Backend.predict file g = (Raise e, g).
Proof.
  intros Hd. unfold decode in Hd.
  unfold Backend.predict, Backend.preprocess, bind, lift.
  rewrite Hd. reflexivity.
Qed.




End BackendHandler.

Lemma sample_globals_well_formed :
  Backend.well_formed (L := sample_libs) 2 sample_globals.
Proof.
  repeat split.
  - discriminate.
  - lia.
  - unfold Numeric.rectangular; simpl. repeat constructor.
Qed.


Lemma predict_valid_image_witness :
  exists (class_id : nat) (class_label : string),
    Backend.predict (L := sample_libs) sample_upload sample_globals =
      (Return {| Backend.predicted_class_id := class_id;
                 Backend.predicted_class_label := class_label |}, sample_globals)
    /\ (class_id < length (Backend.support_embeddings sample_globals))%nat
    /\ Backend.support_labels sample_globals !! class_id = Some class_label.
Proof.
  apply (predict_valid_image (L := sample_libs) 2 sample_globals sample_upload
           sample_upload).
  - reflexivity.
  - apply sample_globals_well_formed.
Defined.

(** C5, as stated, fails: on the empty upload the handler builds no
    response at all; the decoder's exception leaves the handler. *)
Lemma predict_empty_upload_counterexample :
  decode (L := sample_libs) [] = Raise UnidentifiedImageError
  /\ Backend.predict (L := sample_libs) [] sample_globals
     = (Raise UnidentifiedImageError, sample_globals)
  /\ forall response,
       fst (Backend.predict (L := sample_libs) [] sample_globals) <> Return response.
Proof.
  split; [reflexivity | split; [reflexivity|]].
  intros response. simpl. discriminate.
Qed.

Lemma predict_undecodable_witness :
  Backend.predict (L := sample_libs) [] sample_globals
  = (Raise UnidentifiedImageError, sample_globals).
Proof.
  apply (predict_undecodable (L := sample_libs) sample_globals []
           UnidentifiedImageError).
  reflexivity.
Defined.


(** ** app/main.py: the metadata helpers and the handler *)

(** C6.  A class index with no entry in a table gets the default of
    that table: "Unknown condition" for the diagnosis, the empty list
    for the recommendations. *)
Theorem metadata_defaults (class_idx : Z) :
  (Main.diagnoses !! class_idx = None ->
   Main.get_diagnosis_text class_idx = "Unknown condition"%string)
  /\ (Main.recommendations !! class_idx = None ->
      Main.get_recommendations class_idx = []).
Proof.
  unfold Main.get_diagnosis_text, Main.get_recommendations.
  split; intros ->; reflexivity.
Qed.

Lemma metadata_defaults_witness :
  Main.get_diagnosis_text 7 = "Unknown condition"%string
  /\ Main.get_recommendations 7 = [].
Proof.
  destruct (metadata_defaults 7) as [Hd Hr].
  split; [apply Hd | apply Hr]; reflexivity.
Defined.

(** Which indices have no entry. *)
Lemma diagnoses_no_entry (class_idx : Z) :
  class_idx <> 0%Z -> class_idx <> 1%Z -> Main.diagnoses !! class_idx = None.
Proof.
  intros H0 H1. unfold Main.diagnoses.
  rewrite !lookup_insert_ne by congruence. apply lookup_empty.
Qed.

Lemma recommendations_no_entry (class_idx : Z) :
  class_idx <> 0%Z -> Main.recommendations !! class_idx = None.
Proof.
  intros H0. unfold Main.recommendations.
  rewrite lookup_insert_ne by congruence. apply lookup_empty.
Qed.

Section MainHandler.
Context {L : Libs}.

Lemma load_global_preserves (name : string) : preserves (Main.load_global name).
Proof.
  intros ns. unfold Main.load_global. destruct (ns !! name); reflexivity.
Qed.

Lemma main_predict_preserves (file : list Byte.byte) :
  preserves (Main.predict file).
Proof.
  unfold Main.predict.
  pose proof load_global_preserves.
  auto 40 with frame.
Qed.

Lemma module_namespace_image_tensor :
  Main.module_namespace !! "image_tensor"%string = None.
Proof.
  unfold Main.module_namespace.
  apply not_elem_of_list_to_map_1.
  rewrite <- list_fmap_compose. simpl.
  rewrite !elem_of_cons. rewrite elem_of_nil.
  intros H. repeat (destruct H as [H|H]; [discriminate|]). exact H.
Qed.

(** No reachable namespace binds [image_tensor]. *)
Lemma reachable_image_tensor (ns : Main.Namespace) :
  Main.reachable ns -> ns !! "image_tensor"%string = None.
Proof.
  induction 1 as [|ns encoder features labels _ IH|ns file _ IH].
  - apply module_namespace_image_tensor.
  - unfold Main.load_model. rewrite !lookup_insert_ne by discriminate. exact IH.
  - rewrite main_predict_preserves. exact IH.
Qed.

(** C10, amended.  In every namespace the process can reach, the
    handler of app/main.py never returns a response: an upload that does
    not decode ends with the decoder's exception, and every upload that
    decodes ends with an uncaught NameError, no later than the read of
    [image_tensor]. *)
Theorem main_predict_never_responds (ns : Main.Namespace) (file : list Byte.byte) :
  Main.reachable ns ->
  Main.predict file ns =
  (match decode file with
   | Return _ => Raise NameError
   | Raise e => Raise e
   end, ns).
Proof.
  intros Hr. apply reachable_image_tensor in Hr.
  unfold Main.predict, decode, bind, lift.
  destruct (bind_result (Image_open file) (convert "RGB")) as [image|e];
    [|reflexivity].
  unfold Main.load_global. cbv beta iota.
  destruct (ns !! "model"%string); cbv beta iota; [rewrite Hr|]; reflexivity.
Qed.

(** C8.  Serving requests, in either module, leaves the module state
    (the encoder, the support embeddings and the labels in backend.py,
    the whole namespace in app/main.py) exactly as it was after startup;
    the metadata tables are constants of the helper functions. *)
Theorem requests_preserve_state (reqs : list (list Byte.byte))
    (g : Backend.Globals) (ns : Main.Namespace) :
  serve Backend.predict reqs g = g
  /\ Backend.support_embeddings (serve Backend.predict reqs g)
     = Backend.support_embeddings g
  /\ Backend.support_labels (serve Backend.predict reqs g)
     = Backend.support_labels g
  /\ serve Main.predict reqs ns = ns.
Proof.
  assert (Hb : serve Backend.predict reqs g = g)
    by (apply serve_preserves, backend_predict_preserves).
  rewrite Hb. repeat split.
  apply serve_preserves, main_predict_preserves.
Qed.

End MainHandler.

(** C10, as stated, fails: on the empty upload the handler ends with
    the decoder's exception, not with a NameError. *)
Lemma main_predict_counterexample :
  Main.reachable (L := sample_libs) sample_namespace
  /\ Main.predict (L := sample_libs) [] sample_namespace
     = (Raise UnidentifiedImageError, sample_namespace)
  /\ fst (Main.predict (L := sample_libs) [] sample_namespace) <> Raise NameError.
Proof.
  split; [|split].
  - apply Main.reach_startup, Main.reach_import.
  - reflexivity.
  - simpl. discriminate.
Qed.

Lemma main_predict_never_responds_witness :
  Main.predict (L := sample_libs) sample_upload sample_namespace
  = (Raise NameError, sample_namespace).
Proof.
  apply (main_predict_never_responds (L := sample_libs) sample_namespace
           sample_upload).
  apply Main.reach_startup, Main.reach_import.
Defined.

(** * Further properties of the code *)

(** ** The classifier: range, failures, bounds *)

Section ClassifierMore.
Import Numeric.
Local Open Scope R_scope.








(** The two ways a classifier run can go. *)
Lemma classify_cases (q : vec) (S : matrix) :
  (check_pairwise_arrays [q] S = true
   /\ exists i, Backend.classify q S = Return i
                /\ first_max (map (score q) S) i)
  \/ (check_pairwise_arrays [q] S = false
      /\ Backend.classify q S = Raise ValueError).
Proof.
  unfold Backend.classify, cosine_similarity.
  destruct (check_pairwise_arrays [q] S) eqn:Hc; [left | right; auto].
  split; [reflexivity|].
  destruct S as [|s S].
  { unfold check_pairwise_arrays in Hc. simpl in Hc. discriminate. }
  cbn [map bind_result]. unfold argmax. cbn [concat]. rewrite app_nil_r.
  cbn [map]. eexists; split; [reflexivity|].
  apply (argmax_row_first_max (score q s) (map (fun y => score q y) S)).
Qed.

Lemma check_pairwise_query_false (D : nat) (q : vec) (S : matrix) :
  rectangular D S ->
  check_pairwise_arrays [q] S = false <->
  S = [] \/ length q = 0%nat \/ length q <> D.
Proof.
  intros Hr. unfold check_pairwise_arrays.
  destruct S as [|s S].
  { simpl. split; [auto | reflexivity]. }
  assert (Hs : length s = D) by (inversion Hr; assumption).
  cbn [length ncols Nat.eqb negb andb]. rewrite Hs.
  destruct (Nat.eqb_spec (length q) 0) as [H0|H0];
    destruct (Nat.eqb_spec (length q) D) as [HD|HD]; simpl;
    split; intros H; try discriminate; auto.
  destruct H as [H|[H|H]]; [discriminate | contradiction | contradiction].
Qed.

(** X1.  On a rectangular support array of row length [D] the
    classifier fails exactly when the array is empty, the query is
    empty, or the query's dimension is not [D]; the failure is a
    ValueError and nothing else. *)
Theorem classify_raises_iff (D : nat) (q : vec) (S : matrix) (e : exn) :
  rectangular D S ->
  Backend.classify q S = Raise e <->
  e = ValueError /\ (S = [] \/ length q = 0%nat \/ length q <> D).
Proof.
  intros Hr. rewrite <- (check_pairwise_query_false D q S Hr).
  destruct (classify_cases q S) as [(Hc & i & Hi & _)|(Hc & He)].
  - rewrite Hi, Hc. split; [discriminate | intros [_ ?]; discriminate].
  - rewrite He, Hc. split.
    + intros H; injection H as <-. auto.
    + intros [-> _]. reflexivity.
Qed.

Lemma classify_raises_iff_witness :
  Backend.classify [1; 2; 3] sample_embeddings = Raise ValueError <->
  ValueError = ValueError
  /\ (sample_embeddings = [] \/ length [1; 2; 3] = 0%nat
      \/ length [1; 2; 3] <> 2%nat).
Proof.
  apply (classify_raises_iff 2 [1; 2; 3] sample_embeddings ValueError).
  unfold rectangular, sample_embeddings. repeat constructor.
Defined.

Lemma classify_in_range_aux (q : vec) (S : matrix) (i : nat) :
  Backend.classify q S = Return i -> (i < length S)%nat.
Proof.
  intros H.
  destruct (classify_cases q S) as [(_ & j & Hj & Hmax)|(_ & He)].
  - rewrite Hj in H. injection H as <-.
    apply first_max_lt_length in Hmax. rewrite length_map in Hmax. exact Hmax.
  - rewrite He in H. discriminate.
Qed.

(** X2.  An index the classifier returns is an index of the support
    array, whatever the shapes of its arguments. *)
Theorem classify_in_range (q : vec) (S : matrix) (i : nat) :
  Backend.classify q S = Return i -> (i < length S)%nat.
Proof.
  intros H.
  destruct (classify_cases q S) as [(_ & j & Hj & Hmax)|(_ & He)].
  - rewrite Hj in H. injection H as <-.
    apply first_max_lt_length in Hmax. rewrite length_map in Hmax. exact Hmax.
  - rewrite He in H. discriminate.
Qed.

Lemma classify_in_range_witness :
  (0 < length [[1; 0]; [1; 0]])%nat.
Proof.
  apply (classify_in_range [1; 0] [[1; 0]; [1; 0]] 0).
  unfold Backend.classify, cosine_similarity, argmax; simpl.
  destruct (Rlt_dec (score [1; 0] [1; 0]) (score [1; 0] [1; 0])) as [Hlt|_];
    [lra | reflexivity].
Defined.

End ClassifierMore.

(** ** The classifier: uniqueness, scaling the query, exact matches *)

Section ClassifierMatch.
Import Numeric.
Local Open Scope R_scope.






Lemma map_Rmult_1 (s : vec) : map (Rmult 1) s = s.
Proof.
  induction s as [|a s IH]; simpl; [reflexivity|].
  rewrite IH. f_equal. ring.
Qed.

Lemma positive_multiple_refl (s : vec) : positive_multiple s s.
Proof. exists 1. split; [lra | symmetry; apply map_Rmult_1]. Qed.

Lemma positive_multiple_score (q s : vec) :
  row_norm q <> 0 -> positive_multiple q s -> score q s = 1.
Proof.
  intros Hq (c & Hc & ->).
  rewrite score_scale_r by assumption. apply score_self; assumption.
Qed.

Lemma row_norm_nonzero_length (s : vec) : row_norm s <> 0 -> (0 < length s)%nat.
Proof.
  intros Hs. destruct s; simpl; [|lia]. exfalso; apply Hs.
  unfold row_norm; simpl. apply sqrt_0.
Qed.

(** The classifier on a support array that holds a positive multiple
    of the (non-zero) query at index [k]. *)
Lemma classify_match (q : vec) (S : matrix) (k : nat) (s_k : vec) :
  row_norm q <> 0 -> rectangular (length q) S ->
  S !! k = Some s_k -> positive_multiple q s_k ->
  exists j s_j,
    Backend.classify q S = Return j /\ (j <= k)%nat
    /\ S !! j = Some s_j /\ score q s_j = 1.
Proof.
  intros Hq Hr Hk Hmul.
  assert (Hne : S <> []) by (intros ->; discriminate).
  pose proof (row_norm_nonzero_length q Hq) as Hlen.
  destruct (classify_first_max q S Hne Hlen Hr) as (j & Hj & m & Hjm & Hmax & Hfirst).
  rewrite list_lookup_fmap in Hjm.
  destruct (S !! j) as [s_j|] eqn:Hsj; [|discriminate].
  simpl in Hjm. injection Hjm as Hm.
  assert (Hk1 : map (score q) S !! k = Some 1).
  { rewrite list_lookup_fmap, Hk. simpl.
    rewrite (positive_multiple_score q s_k Hq Hmul). reflexivity. }
  assert (Hm1 : m = 1).
  { pose proof (Hmax _ _ Hk1). pose proof (score_le_1 q s_j). lra. }
  exists j, s_j. split; [assumption|]. split; [|split; [assumption | lra]].
  destruct (le_lt_dec j k) as [|Hlt]; [assumption|].
  pose proof (Hfirst _ _ Hlt Hk1). lra.
Qed.



End ClassifierMatch.

(** ** The handler of backend.py: what a run can end with *)

Section BackendOutcomes.
Import Numeric.
Context {L : Libs}.
Local Open Scope R_scope.

(** The handler as one expression over the decoded upload. *)
Lemma backend_predict_unfold (file : list Byte.byte) (g : Backend.Globals) :
  Backend.predict file g =
  (bind_result (decode file) (fun image =>
     bind_result
       (Backend.classify
          (Backend.model g (unsqueeze0 (Backend.transform image)))
          (Backend.support_embeddings g))
       (fun class_id =>
          bind_result (Backend.subscript (Backend.support_labels g) class_id)
            (fun class_label =>
               Return {| Backend.predicted_class_id := class_id;
                         Backend.predicted_class_label := class_label |}))),
   g).
Proof.
  destruct (decode file) as [image|e] eqn:Hd.
  - apply backend_predict_decoded; assumption.
  - unfold decode in Hd.
    unfold Backend.predict, Backend.preprocess, bind, lift.
    rewrite Hd. reflexivity.
Qed.

Lemma backend_response_inv (file : list Byte.byte) (g : Backend.Globals)
    (r : Backend.JSONResponse) :
  fst (Backend.predict file g) = Return r ->
  exists image,
    decode file = Return image
    /\ Backend.classify (Backend.model g (unsqueeze0 (Backend.transform image)))
         (Backend.support_embeddings g)
       = Return (Backend.predicted_class_id r)
    /\ (Backend.predicted_class_id r < length (Backend.support_embeddings g))%nat
    /\ (Backend.predicted_class_id r < length (Backend.support_labels g))%nat
    /\ Backend.support_labels g !! Backend.predicted_class_id r
       = Some (Backend.predicted_class_label r).
Proof.
  rewrite backend_predict_unfold. cbn [fst].
  destruct (decode file) as [image|e]; [|discriminate].
  cbn [bind_result].
  destruct (Backend.classify _ _) as [i|e] eqn:Hc; [|discriminate].
  cbn [bind_result]. unfold Backend.subscript.
  destruct (Backend.support_labels g !! i) as [l|] eqn:Hl; [|discriminate].
  cbn [bind_result]. intros H; injection H as <-. cbn.
  exists image. split; [reflexivity|]. split; [assumption|].
  split; [eapply classify_in_range_aux; eassumption|].
  split; [eapply lookup_lt_Some; eassumption | assumption].
Qed.

(** X7.  Whatever the module state, a response of the handler is sound:
    the upload decoded, the class id is the classifier's result on the
    encoder's output, it indexes both the support array and the label
    list, and the label is the one stored at that index. *)
Theorem predict_response_sound (file : list Byte.byte) (g : Backend.Globals)
    (r : Backend.JSONResponse) :
  fst (Backend.predict file g) = Return r ->
  exists image,
    decode file = Return image
    /\ Backend.classify (Backend.model g (unsqueeze0 (Backend.transform image)))
         (Backend.support_embeddings g)
       = Return (Backend.predicted_class_id r)
    /\ (Backend.predicted_class_id r < length (Backend.support_embeddings g))%nat
    /\ (Backend.predicted_class_id r < length (Backend.support_labels g))%nat
    /\ Backend.support_labels g !! Backend.predicted_class_id r
       = Some (Backend.predicted_class_label r).
Proof.
  rewrite backend_predict_unfold. cbn [fst].
  destruct (decode file) as [image|e]; [|discriminate].
  cbn [bind_result].
  destruct (Backend.classify _ _) as [i|e] eqn:Hc; [|discriminate].
  cbn [bind_result]. unfold Backend.subscript.
  destruct (Backend.support_labels g !! i) as [l|] eqn:Hl; [|discriminate].
  cbn [bind_result]. intros H; injection H as <-. cbn.
  exists image. split; [reflexivity|]. split; [assumption|].
  split; [eapply classify_in_range_aux; eassumption|].
  split; [eapply lookup_lt_Some; eassumption | assumption].
Qed.

(** X8.  The handler ends in one of three failures only: the decoder's
    exception when the upload does not decode, a ValueError when the
    shape check of the similarity routine fails, an IndexError when the
    classifier's index has no label. *)
Theorem predict_failure_modes (file : list Byte.byte) (g : Backend.Globals)
    (e : exn) :
  fst (Backend.predict file g) = Raise e ->
  decode file = Raise e
  \/ exists image,
       decode file = Return image
       /\ ((e = ValueError
            /\ check_pairwise_arrays
                 [Backend.model g (unsqueeze0 (Backend.transform image))]
                 (Backend.support_embeddings g) = false)
           \/ (e = IndexError
               /\ exists i,
                    Backend.classify
                      (Backend.model g (unsqueeze0 (Backend.transform image)))
                      (Backend.support_embeddings g) = Return i
                    /\ (length (Backend.support_labels g) <= i)%nat)).
Proof.
  rewrite backend_predict_unfold. cbn [fst].
  destruct (decode file) as [image|e'];
    [|intros H; left; cbn in H; injection H as ->; reflexivity].
  cbn [bind_result]. intros H. right. exists image. split; [reflexivity|].
  destruct (classify_cases
              (Backend.model g (unsqueeze0 (Backend.transform image)))
              (Backend.support_embeddings g)) as [(_ & i & Hi & _)|(Hc & He)].
  - rewrite Hi in H. cbn [bind_result] in H. unfold Backend.subscript in H.
    destruct (Backend.support_labels g !! i) as [l|] eqn:Hl; [discriminate|].
    cbn [bind_result] in H. injection H as <-.
    right. split; [reflexivity|]. exists i. split; [assumption|].
    apply lookup_ge_None; assumption.
  - rewrite He in H. cbn [bind_result] in H. injection H as <-.
    left. split; [reflexivity | assumption].
Qed.

(** X9.  With a support set as the data model has it, the decoding of
    the upload is the only thing that can make a request fail: the
    handler raises [e] exactly when the decoder does. *)
Theorem predict_fails_iff_decode_fails (D : nat) (file : list Byte.byte)
    (g : Backend.Globals) (e : exn) :
  Backend.well_formed D g ->
  fst (Backend.predict file g) = Raise e <-> decode file = Raise e.
Proof.
  intros (Hlen & Hne & HD & Hrect & Hdim).
  rewrite backend_predict_unfold. cbn [fst].
  destruct (decode file) as [image|e'].
  2:{ cbn [bind_result]. split; intros H; injection H as ->; reflexivity. }
  cbn [bind_result].
  set (q := Backend.model g (unsqueeze0 (Backend.transform image))).
  assert (Hq : length q = D) by apply Hdim.
  destruct (classify_first_max q (Backend.support_embeddings g)) as (i & Hi & Hmax).
  { assumption. } { lia. } { rewrite Hq; assumption. }
  apply first_max_lt_length in Hmax. rewrite length_map in Hmax.
  destruct (lookup_lt_is_Some_2 (Backend.support_labels g) i) as [l Hl]; [lia|].
  rewrite Hi. cbn [bind_result]. unfold Backend.subscript. rewrite Hl.
  cbn [bind_result]. split; discriminate.
Qed.


Lemma labels_NoDup : NoDup Backend.labels.
Proof.
  unfold Backend.labels.
  repeat (apply NoDup_cons; split;
          [rewrite ?elem_of_cons, elem_of_nil; intros H;
           repeat (destruct H as [H|H]; [discriminate|]); exact H |]).
  apply NoDup_nil_2.
Qed.

(** X11.  In the state the module starts in, the label of a response
    identifies its class id: two responses with the same label carry
    the same id. *)
Theorem startup_label_identifies_class (encoder : Tensor -> vec)
    (embeddings : matrix) (file1 file2 : list Byte.byte)
    (r1 r2 : Backend.JSONResponse) :
  fst (Backend.predict file1 (Backend.startup encoder embeddings)) = Return r1 ->
  fst (Backend.predict file2 (Backend.startup encoder embeddings)) = Return r2 ->
  Backend.predicted_class_label r1 = Backend.predicted_class_label r2 ->
  Backend.predicted_class_id r1 = Backend.predicted_class_id r2.
Proof.
  intros H1 H2 Hl.
  apply backend_response_inv in H1 as (_ & _ & _ & _ & _ & L1).
  apply backend_response_inv in H2 as (_ & _ & _ & _ & _ & L2).
  cbn [Backend.startup Backend.support_labels] in L1, L2.
  rewrite Hl in L1.
  eapply NoDup_lookup; [apply labels_NoDup | eassumption | eassumption].
Qed.

End BackendOutcomes.

(** ** Concrete runs of the handler of backend.py *)

Section BackendRuns.
Import Numeric.
Local Open Scope R_scope.

Lemma row_norm_unit_y : row_norm [0; 1] <> 0.
Proof.
  unfold row_norm; simpl. intros H. apply sqrt_eq_0 in H; lra.
Qed.

Lemma sample_classify : Backend.classify [0; 1] sample_embeddings = Return 1%nat.
Proof.
  destruct (classify_match [0; 1] sample_embeddings 1 [0; 1]) as
    (j & s_j & Hj & Hle & Hsj & H1).
  - apply row_norm_unit_y.
  - unfold rectangular, sample_embeddings. repeat constructor.
  - reflexivity.
  - apply positive_multiple_refl.
  - rewrite Hj. f_equal.
    destruct j as [|[|j]]; [|reflexivity|lia].
    exfalso. simpl in Hsj. injection Hsj as <-.
    rewrite score_quotient in H1. simpl in H1.
    replace (0 * 1 + (1 * 0 + 0)) with 0 in H1 by ring.
    unfold Rdiv in H1. rewrite Rmult_0_l in H1. lra.
Qed.

Lemma sample_predict :
  Backend.predict (L := sample_libs) sample_upload sample_globals
  = (Return {| Backend.predicted_class_id := 1;
               Backend.predicted_class_label := "healthy" |}, sample_globals).
Proof.
  rewrite (backend_predict_decoded (L := sample_libs) sample_upload sample_upload
             sample_globals eq_refl).
  change (Backend.classify (Backend.model sample_globals
            (@unsqueeze0 sample_libs (Backend.transform (L := sample_libs) sample_upload)))
            (Backend.support_embeddings sample_globals))
    with (Backend.classify [0; 1] sample_embeddings).
  rewrite sample_classify. reflexivity.
Qed.

End BackendRuns.

Lemma predict_response_sound_witness :
  exists image,
    decode (L := sample_libs) sample_upload = Return image
    /\ Backend.classify
         (Backend.model sample_globals
            (@unsqueeze0 sample_libs (Backend.transform (L := sample_libs) image)))
         (Backend.support_embeddings sample_globals)
       = Return 1%nat
    /\ (1 < length (Backend.support_embeddings sample_globals))%nat
    /\ (1 < length (Backend.support_labels sample_globals))%nat
    /\ Backend.support_labels sample_globals !! 1%nat = Some "healthy"%string.
Proof.
  apply (predict_response_sound (L := sample_libs) sample_upload sample_globals
           {| Backend.predicted_class_id := 1;
              Backend.predicted_class_label := "healthy" |}).
  rewrite sample_predict. reflexivity.
Defined.

Lemma predict_failure_modes_witness :
  decode (L := sample_libs) [] = Raise UnidentifiedImageError
  \/ exists image,
       decode (L := sample_libs) [] = Return image
       /\ ((UnidentifiedImageError = ValueError
            /\ Numeric.check_pairwise_arrays
                 [Backend.model sample_globals
                    (@unsqueeze0 sample_libs
                       (Backend.transform (L := sample_libs) image))]
                 (Backend.support_embeddings sample_globals) = false)
           \/ (UnidentifiedImageError = IndexError
               /\ exists i,
                    Backend.classify
                      (Backend.model sample_globals
                         (@unsqueeze0 sample_libs
                            (Backend.transform (L := sample_libs) image)))
                      (Backend.support_embeddings sample_globals) = Return i
                    /\ (length (Backend.support_labels sample_globals) <= i)%nat)).
Proof.
  apply (predict_failure_modes (L := sample_libs) [] sample_globals
           UnidentifiedImageError).
  reflexivity.
Defined.

Lemma predict_fails_iff_decode_fails_witness :
  fst (Backend.predict (L := sample_libs) [] sample_globals)
    = Raise UnidentifiedImageError
  <-> decode (L := sample_libs) [] = Raise UnidentifiedImageError.
Proof.
  apply (predict_fails_iff_decode_fails (L := sample_libs) 2 [] sample_globals
           UnidentifiedImageError).
  apply sample_globals_well_formed.
Defined.


Lemma startup_label_identifies_class_witness :
  Backend.predicted_class_id
    {| Backend.predicted_class_id := 1; Backend.predicted_class_label := "healthy" |}
  = Backend.predicted_class_id
      {| Backend.predicted_class_id := 1; Backend.predicted_class_label := "healthy" |}.
Proof.
  apply (startup_label_identifies_class (L := sample_libs)
           (fun _ => [0; 1]%R) sample_embeddings sample_upload sample_upload).
  - fold sample_globals. rewrite sample_predict. reflexivity.
  - fold sample_globals. rewrite sample_predict. reflexivity.
  - reflexivity.
Defined.

(** ** app/main.py: the tables and the startup hook *)

(** X12.  The defaults of the metadata helpers are returned for the
    unlisted indices only: the diagnosis is "Unknown condition" exactly
    when the index is neither 0 nor 1, and the recommendation list is
    empty exactly when the index is not 0. *)
Theorem metadata_default_iff (class_idx : Z) :
  (Main.get_diagnosis_text class_idx = "Unknown condition"%string
   <-> class_idx <> 0%Z /\ class_idx <> 1%Z)
  /\ (Main.get_recommendations class_idx = [] <-> class_idx <> 0%Z).
Proof.
  unfold Main.get_diagnosis_text, Main.get_recommendations.
  split.
  - destruct (decide (class_idx = 0%Z)) as [->|H0].
    { split; [discriminate | intros [H _]; contradiction]. }
    destruct (decide (class_idx = 1%Z)) as [->|H1].
    { split; [discriminate | intros [_ H]; contradiction]. }
    rewrite diagnoses_no_entry by assumption. split; auto.
  - destruct (decide (class_idx = 0%Z)) as [->|H0].
    { split; [discriminate | intros H; contradiction]. }
    rewrite recommendations_no_entry by assumption. split; auto.
Qed.

Section MainStartup.
Import Numeric.
Context {L : Libs}.

(** X13.  The startup hook binds [model], [support_features] and
    [support_labels] to what it loaded and touches no other name, and
    these bindings are what every later request finds: serving
    requests does not change them. *)
Theorem load_model_bindings (encoder : Tensor -> vec) (features : matrix)
    (labels : list string) (ns : Main.Namespace) (reqs : list (list Byte.byte)) :
  let ns' := serve Main.predict reqs (Main.load_model encoder features labels ns) in
  ns' !! "model"%string = Some (Main.VEncoder encoder)
  /\ ns' !! "support_features"%string = Some (Main.VArray features)
  /\ ns' !! "support_labels"%string = Some (Main.VLabels labels)
  /\ forall name : string,
       name <> "model"%string -> name <> "support_features"%string ->
       name <> "support_labels"%string ->
       ns' !! name = ns !! name.
Proof.
  intros ns'. unfold ns'.
  rewrite (serve_preserves Main.predict reqs _ main_predict_preserves).
  unfold Main.load_model. repeat split.
  - rewrite !lookup_insert_ne by discriminate. apply lookup_insert_eq.
  - rewrite lookup_insert_ne by discriminate. apply lookup_insert_eq.
  - apply lookup_insert_eq.
  - intros name H1 H2 H3. rewrite !lookup_insert_ne by congruence. reflexivity.
Qed.

(** X14.  Running the startup hook again replaces what the earlier run
    bound: only the last load counts. *)
Theorem load_model_last_wins (e1 e2 : Tensor -> vec) (f1 f2 : matrix)
    (l1 l2 : list string) (ns : Main.Namespace) :
  Main.load_model e2 f2 l2 (Main.load_model e1 f1 l1 ns)
  = Main.load_model e2 f2 l2 ns.
Proof.
  unfold Main.load_model. apply map_eq; intros name.
  destruct (decide (name = "support_labels"%string)) as [->|H1].
  { rewrite !lookup_insert_eq. reflexivity. }
  rewrite !(lookup_insert_ne _ "support_labels"%string) by congruence.
  destruct (decide (name = "support_features"%string)) as [->|H2].
  { rewrite !lookup_insert_eq. reflexivity. }
  rewrite !(lookup_insert_ne _ "support_features"%string) by congruence.
  destruct (decide (name = "model"%string)) as [->|H3].
  { rewrite !lookup_insert_eq. reflexivity. }
  rewrite !(lookup_insert_ne _ "model"%string) by congruence.
  repeat (rewrite ?(lookup_insert_ne _ "support_labels"%string),
            ?(lookup_insert_ne _ "support_features"%string),
            ?(lookup_insert_ne _ "model"%string) by congruence).
  reflexivity.
Qed.



End MainStartup.


Lemma load_model_bindings_witness :
  let ns' := serve (Main.predict (L := sample_libs)) [sample_upload; []]
               sample_namespace in
  ns' !! "model"%string = Some (Main.VEncoder (L := sample_libs) (fun _ => [0; 1]%R))
  /\ ns' !! "support_features"%string = Some (Main.VArray sample_embeddings)
  /\ ns' !! "support_labels"%string = Some (Main.VLabels Backend.labels)
  /\ forall name : string,
       name <> "model"%string -> name <> "support_features"%string ->
       name <> "support_labels"%string ->
       ns' !! name = Main.module_namespace (L := sample_libs) !! name.
Proof.
  apply (load_model_bindings (L := sample_libs) (fun _ => [0; 1]%R)
           sample_embeddings Backend.labels
           (Main.module_namespace (L := sample_libs)) [sample_upload; []]).
Defined.
